(** * Income statistics from bracketed IRS return counts

    A shallow embedding of [income_tax_data_analyzer.py]: the bracket
    aggregator [read_in_data], the distribution estimator ([lin_approx],
    [compute_mean], [compute_median]) and the query [income_info],
    followed by the properties the specification states about them.

    Numbers.  The program computes with Python's [float], IEEE binary64.
    The file reads its arithmetic in two ways.

    - At top level the operators are exact: numbers are rationals ([Q]),
      [/] is true division and raises [ZeroDivisionError] on a zero
      divisor, [//] is floor division, [==] is [Qeq].  This reading says
      which formula the program evaluates and which path it takes; it has
      no rounding, no overflow, no infinity and no NaN.
    - In [Binary64] the same functions are written over primitive
      binary64 floats, with rounding to nearest, overflow to infinity and
      NaN as Python has them.  This reading says which value the program
      returns.

    Control.  A call either returns a value or raises an exception; the
    exceptions are the ones the program can meet.  [sys.exit()] raises
    [SystemExit], which nothing in the program catches. *)

From Stdlib Require Import String ZArith QArith Qround List Bool Lia Lqa Psatz.
From Stdlib Require DecimalString.
From Stdlib Require Floats.
Import ListNotations.
Local Open Scope Q_scope.

(** ** Outcomes of a call *)

Inductive exn : Type :=
| ZeroDivisionError
| IndexError
| ValueError
| SystemExit.

Inductive result (A : Type) : Type :=
| Return (a : A)
| Raise (e : exn).

Arguments Return {A} a.
Arguments Raise {A} e.

Definition bind {A B : Type} (c : result A) (k : A -> result B) : result B :=
  match c with
  | Return a => k a
  | Raise e => Raise e
  end.

Notation "x <- c ;; k" := (bind c (fun x => k))
  (at level 61, c at next level, right associativity).

(** [try: body except: handler] with a bare [except]. *)
Definition try_except {A : Type} (body : result A) (handler : exn -> result A)
  : result A :=
  match body with
  | Return a => Return a
  | Raise e => handler e
  end.

(** [try: body except IndexError: handler]. *)
Definition try_except_IndexError {A : Type} (body : result A)
  (handler : result A) : result A :=
  match body with
  | Raise IndexError => handler
  | other => other
  end.

Definition sys_exit {A : Type} : result A := Raise SystemExit.

(** ** Python arithmetic *)

(** [x / y] *)
Definition py_div (x y : Q) : result Q :=
  if Qeq_bool y 0 then Raise ZeroDivisionError else Return (x / y).

(** [x // 2]; the divisor is the literal 2, so nothing is raised. *)
Definition floordiv2 (x : Q) : Q := inject_Z (Qfloor (x / 2)).

(** [x > y] *)
Definition py_gt (x y : Q) : bool := negb (Qle_bool x y).

(** [l[i]] for an index that is never negative. *)
Definition py_index (l : list Q) (i : nat) : result Q :=
  match nth_error l i with
  | Some v => Return v
  | None => Raise IndexError
  end.

(** [zip(a, b, c)] stops at the shortest argument. *)
Fixpoint zip3 {A B C : Type} (a : list A) (b : list B) (c : list C)
  : list (A * B * C) :=
  match a, b, c with
  | x :: a', y :: b', z :: c' => (x, y, z) :: zip3 a' b' c'
  | _, _, _ => []
  end.

(** [str(n)] for an integer. *)
Definition py_str (n : Z) : string :=
  DecimalString.NilZero.string_of_int (Z.to_int n).

(** ** The data structure *)

Record data_dict : Type := {
  zipcode : string;
  counts : list Q;
  total : Q;
  lowerbounds : list Q;
  upperbounds : list Q
}.

Definition the_lowerbounds : list Q :=
  [1; 25000; 50000; 75000; 100000; 200000].
Definition the_upperbounds : list Q :=
  [24999; 49999; 74999; 99999; 199999; 10000000].

(** ** The table *)

(** A cell of column [N1]: a value [float] accepts, or one it rejects. *)
Inductive cell : Type :=
| Numeric (q : Q)
| NonNumeric.

Record row : Type := {
  row_zipcode : Z;
  agi_stub : Z;
  N1 : cell
}.

Definition dataframe : Type := list row.

(** [float(c)] *)
Definition py_float (c : cell) : result Q :=
  match c with
  | Numeric q => Return q
  | NonNumeric => Raise ValueError
  end.

(** [series.iloc[0]] *)
Definition iloc0 (series : list cell) : result cell :=
  match series with
  | c :: _ => Return c
  | [] => Raise IndexError
  end.

(** ** read_in_data *)

(** The body of the loop's [try]:
    [float(df[df['agi_stub'] == i]['N1'].iloc[0])], with its bare
    [except: sys.exit()]. *)
Definition num_returns_of (df : dataframe) (i : Z) : result Q :=
  try_except
    (c <- iloc0 (map N1 (filter (fun r => (agi_stub r =? i)%Z) df)) ;;
     py_float c)
    (fun _ => sys_exit).

(** [for i in range(1, 7)], threading [counts] and [total]. *)
Fixpoint bracket_loop (df : dataframe) (stubs : list Z)
  (counts_ : list Q) (total_ : Q) : result (list Q * Q) :=
  match stubs with
  | [] => Return (counts_, total_)
  | i :: rest =>
      num_returns <- num_returns_of df i ;;
      bracket_loop df rest (counts_ ++ [num_returns]) (total_ + num_returns)
  end.

Definition range_1_7 : list Z := [1; 2; 3; 4; 5; 6]%Z.

(** The table [read_df(filename)] is passed in. *)
Definition read_in_data (zipcode_ : Z) (df_full : dataframe)
  : result data_dict :=
  df <- try_except_IndexError
          (Return (filter (fun r => (row_zipcode r =? zipcode_)%Z) df_full))
          sys_exit ;;
  ct <- bracket_loop df range_1_7 [] 0 ;;
  Return {| zipcode := py_str zipcode_;
            counts := fst ct;
            total := snd ct;
            lowerbounds := the_lowerbounds;
            upperbounds := the_upperbounds |}.

(** ** lin_approx *)

Definition lin_approx (x_1 y_1 x_2 y_2 x_0 : Q) : result Q :=
  slope <- py_div (y_2 - y_1) (x_2 - x_1) ;;
  Return (slope * (x_0 - x_1) + y_1).

(** ** compute_mean *)

Definition compute_mean (data : data_dict) : result Q :=
  let endpoints_and_counts :=
    zip3 (lowerbounds data) (upperbounds data) (counts data) in
  let numerator :=
    fold_left
      (fun numerator t =>
         let '(t0, t1, t2) := t in
         let midpoint := (t0 + t1) / 2 in
         numerator + t2 * midpoint)
      endpoints_and_counts 0 in
  py_div numerator (total data).

(** ** compute_median *)

Definition brackets : list Q :=
  [1; 25000; 50000; 75000; 100000; 200000; 10000000].

(** The [for current_count in data_dict['counts']] loop.  Falling off the
    end of the list leaves [result] at its initial value [-1]. *)
Fixpoint median_loop (cs : list Q) (bracket_number : nat)
  (running_total_returns median_x : Q) : result Q :=
  match cs with
  | [] => Return (-1)
  | current_count :: rest =>
      let running_total_returns := running_total_returns + current_count in
      if py_gt running_total_returns median_x then
        y_1 <- py_index brackets bracket_number ;;
        y_2 <- py_index brackets (bracket_number + 1) ;;
        let x_1 := running_total_returns - current_count in
        let x_2 := running_total_returns in
        lin_approx x_1 y_1 x_2 y_2 median_x
      else
        median_loop rest (S bracket_number) running_total_returns median_x
  end.

Definition compute_median (data : data_dict) : result Q :=
  let median_x := floordiv2 (total data) in
  median_loop (counts data) 0 0 median_x.

(** ** income_info (the formatted [print] is left out) *)

Definition income_info (zipcode_ : Z) (df_full : dataframe)
  : result (Z * Q * Q) :=
  data <- read_in_data zipcode_ df_full ;;
  mean <- compute_mean data ;;
  median <- compute_median data ;;
  Return (zipcode_, mean, median).

(** ** Concrete records and tables *)

Definition record_of (cs : list Q) (t : Q) : data_dict :=
  {| zipcode := "98115"%string; counts := cs; total := t;
     lowerbounds := the_lowerbounds; upperbounds := the_upperbounds |}.

Definition example1 : data_dict := record_of [10; 0; 0; 0; 0; 0] 10.
Definition example2 : data_dict := record_of [0; 0; 0; 0; 0; 0] 0.
Definition example3 : data_dict := record_of [5; 5; 0; 0; 0; 0] 10.

Definition negative_total : data_dict := record_of [0; -2; 0; 0; 0; 0] (-2).

Definition row_of (z i : Z) (c : cell) : row :=
  {| row_zipcode := z; agi_stub := i; N1 := c |}.

(** ** Vocabulary of the specification *)

(** [median_rank = floor(total / 2)] *)
Definition median_rank (data : data_dict) : Q := floordiv2 (total data).

(** The cumulative count through bracket [k], starting from [run]. *)
Definition running_from (run : Q) (cs : list Q) (k : nat) : Q :=
  fold_left Qplus (firstn (S k) cs) run.

Definition running_total (data : data_dict) (k : nat) : Q :=
  running_from 0 (counts data) k.

(** Bracket [k] is the first one whose cumulative count exceeds the rank. *)
Definition first_target (data : data_dict) (k : nat) : Prop :=
  (k < length (counts data))%nat /\
  median_rank data < running_total data k /\
  forall j, (j < k)%nat -> ~ median_rank data < running_total data j.

(** [sum(counts)] *)
Definition py_sum (cs : list Q) : Q := fold_left Qplus cs 0.

(** A valid BracketRecord. *)
Record valid (data : data_dict) : Prop := {
  valid_six : length (counts data) = 6%nat;
  valid_nonneg : Forall (fun c => 0 <= c) (counts data);
  valid_total : total data == py_sum (counts data);
  valid_positive : 0 < total data;
  valid_lower : lowerbounds data = the_lowerbounds;
  valid_upper : upperbounds data = the_upperbounds
}.

(** The points of the interpolation at bracket [k]: [counts[k]], the
    cumulative counts before and through the bracket, and the boundaries
    [B[k]] and [B[k+1]]. *)
Definition count_at (data : data_dict) (k : nat) : Q := nth k (counts data) 0.
Definition x_1 (data : data_dict) (k : nat) : Q :=
  running_total data k - count_at data k.
Definition x_2 (data : data_dict) (k : nat) : Q := running_total data k.
Definition y_1 (k : nat) : Q := nth k brackets 0.
Definition y_2 (k : nat) : Q := nth (S k) brackets 0.

Definition slope (data : data_dict) (k : nat) : Q :=
  (y_2 k - y_1 k) / (x_2 data k - x_1 data k).






(** The row the aggregator reads for a zone and a bracket index: the first
    row of the table with that zone key and that index. *)
Definition first_match (zipcode_ i : Z) (df_full : dataframe) : option row :=
  find (fun r => (row_zipcode r =? zipcode_)%Z && (agi_stub r =? i)%Z) df_full.

(** No row for the zone and the index, or a count that is not numeric. *)
Definition missing_or_malformed (zipcode_ i : Z) (df_full : dataframe) : Prop :=
  match first_match zipcode_ i df_full with
  | None => True
  | Some r => N1 r = NonNumeric
  end.

(** An uncaught [SystemExit] ends the interpreter. *)
Definition terminates_process {A : Type} (r : result A) : Prop :=
  r = Raise SystemExit.

(** A failure the caller of the query can handle as an error of the query:
    an exception other than the request to exit. *)
Definition failed_query {A : Type} (r : result A) : Prop :=
  exists e, r = Raise e /\ e <> SystemExit.

Definition table_98115 : dataframe :=
  [row_of 10001 1 (Numeric 70); row_of 98115 1 (Numeric 10);
   row_of 98115 2 (Numeric 20); row_of 98115 3 (Numeric 30);
   row_of 98115 4 (Numeric 40); row_of 98115 5 (Numeric 50);
   row_of 98115 6 (Numeric 60)].

Definition table_text_count : dataframe :=
  [row_of 98115 1 (Numeric 10); row_of 98115 2 NonNumeric;
   row_of 98115 3 (Numeric 30); row_of 98115 4 (Numeric 40);
   row_of 98115 5 (Numeric 50); row_of 98115 6 (Numeric 60)].

Definition record_98115 : data_dict :=
  record_of [10; 20; 30; 40; 50; 60] (0 + 10 + 20 + 30 + 40 + 50 + 60).

(** The failures the specification names, and how a caller reads an
    exception of the program as one of them, by its class: an empty
    selection ([IndexError]) is a row that was not found, a rejected
    conversion ([ValueError]) is malformed data, a zero divisor
    ([ZeroDivisionError]) is an undefined division.  The program has no
    exception of its own for a failed estimation, and a request to exit is
    not a failure of the query. *)
Inductive failure : Type :=
| NotFound
| MalformedData
| DivisionUndefined
| EstimationFailed.

Definition failure_of (e : exn) : option failure :=
  match e with
  | IndexError => Some NotFound
  | ValueError => Some MalformedData
  | ZeroDivisionError => Some DivisionUndefined
  | SystemExit => None
  end.

Definition signals {A : Type} (r : result A) (f : failure) : Prop :=
  exists e, r = Raise e /\ failure_of e = Some f.

(** ** Further vocabulary *)

(** The record [data] with its counts replaced. *)
Definition set_counts (data : data_dict) (cs : list Q) : data_dict :=
  {| zipcode := zipcode data; counts := cs; total := total data;
     lowerbounds := lowerbounds data; upperbounds := upperbounds data |}.

(** A record with a seventh count. *)
Definition seven_counts : data_dict := record_of [0; 0; 0; 0; 0; 0; 10] 10.

(** A row the aggregator never reads when asked for zone [zipcode_]: a row
    of another zone, or one whose bracket index is not from 1 to 6. *)
Definition irrelevant_row (zipcode_ : Z) (r : row) : Prop :=
  row_zipcode r <> zipcode_ \/ ~ (1 <= agi_stub r <= 6)%Z.

Definition table_zero_counts : dataframe :=
  [row_of 98115 1 (Numeric 0); row_of 98115 2 (Numeric 0);
   row_of 98115 3 (Numeric 0); row_of 98115 4 (Numeric 0);
   row_of 98115 5 (Numeric 0); row_of 98115 6 (Numeric 0)].

Definition record_zero_counts : data_dict :=
  record_of [0; 0; 0; 0; 0; 0] (0 + 0 + 0 + 0 + 0 + 0 + 0).

(** ** The estimator in binary64

    The functions of the estimator once more, over binary64 floats.  The
    counts and the total of a record made by [read_in_data] are floats
    ([float(...)] at line 60).  The bounds and boundaries are small
    integers; wherever the program combines two of them ([t[0] + t[1]],
    [y_2 - y_1]) the integer result is exact and is a float without
    rounding, so they are written as floats here.  The integers [0] and
    [-1] that start [numerator], [running_total_returns] and [result]
    become [0.0] and [-1.0] at their first use with a float. *)
Module Binary64.
Import Stdlib.Floats.Floats.
Local Open Scope float_scope.
Set Warnings "-inexact-float".

(** [x / y]: Python raises on a divisor equal to zero, of either sign. *)
Definition py_div (x y : float) : result float :=
  if y =? 0 then Raise ZeroDivisionError else Return (x / y).

(** The integer below [x].  From [2^52] on every float is an integer;
    below, adding and subtracting [2^52] rounds to the nearest integer. *)
Definition two52 : float := 4503599627370496.

Definition floor (x : float) : float :=
  if abs x <? two52 then
    let r := if 0 <=? x then (x + two52) - two52 else (x - two52) + two52 in
    if x <? r then r - 1 else r
  else x.

(** [x // 2]: the quotient by 2 is exact, its floor is the result; NaN and
    the infinities give NaN. *)
Definition floordiv2 (x : float) : float :=
  if is_infinity x then nan else floor (x / 2).

(** [x > y] *)
Definition py_gt (x y : float) : bool := y <? x.

Definition py_index (l : list float) (i : nat) : result float :=
  match nth_error l i with
  | Some v => Return v
  | None => Raise IndexError
  end.

Record data_dict : Type := {
  zipcode : string;
  counts : list float;
  total : float;
  lowerbounds : list float;
  upperbounds : list float
}.

Definition the_lowerbounds : list float :=
  [1; 25000; 50000; 75000; 100000; 200000].
Definition the_upperbounds : list float :=
  [24999; 49999; 74999; 99999; 199999; 10000000].

Definition lin_approx (x_1 y_1 x_2 y_2 x_0 : float) : result float :=
  slope <- py_div (y_2 - y_1) (x_2 - x_1) ;;
  Return (slope * (x_0 - x_1) + y_1).

Definition compute_mean (data : data_dict) : result float :=
  let endpoints_and_counts :=
    zip3 (lowerbounds data) (upperbounds data) (counts data) in
  let numerator :=
    fold_left
      (fun numerator t =>
         let '(t0, t1, t2) := t in
         let midpoint := (t0 + t1) / 2 in
         numerator + t2 * midpoint)
      endpoints_and_counts 0 in
  py_div numerator (total data).

Definition brackets : list float :=
  [1; 25000; 50000; 75000; 100000; 200000; 10000000].

Fixpoint median_loop (cs : list float) (bracket_number : nat)
  (running_total_returns median_x : float) : result float :=
  match cs with
  | [] => Return (-1)
  | current_count :: rest =>
      let running_total_returns := running_total_returns + current_count in
      if py_gt running_total_returns median_x then
        y_1 <- py_index brackets bracket_number ;;
        y_2 <- py_index brackets (bracket_number + 1) ;;
        let x_1 := running_total_returns - current_count in
        let x_2 := running_total_returns in
        lin_approx x_1 y_1 x_2 y_2 median_x
      else
        median_loop rest (S bracket_number) running_total_returns median_x
  end.

Definition compute_median (data : data_dict) : result float :=
  let median_x := floordiv2 (total data) in
  median_loop (counts data) 0 0 median_x.

(** [sum(counts)] *)
Definition py_sum (cs : list float) : float := fold_left add cs 0.

(** A valid BracketRecord: six non-negative counts, a positive total equal
    to their sum, the fixed bounds. *)
Definition valid (data : data_dict) : Prop :=
  length (counts data) = 6%nat /\
  forallb (fun c => 0 <=? c) (counts data) = true /\
  (total data =? py_sum (counts data)) = true /\
  (0 <? total data) = true /\
  lowerbounds data = the_lowerbounds /\
  upperbounds data = the_upperbounds.



Definition record_of (cs : list float) (t : float) : data_dict :=
  {| zipcode := "98115"%string; counts := cs; total := t;
     lowerbounds := the_lowerbounds; upperbounds := the_upperbounds |}.

Definition example1 : data_dict := record_of [10; 0; 0; 0; 0; 0] 10.
Definition example3 : data_dict := record_of [5; 5; 0; 0; 0; 0] 10.



(** Counts whose running total rounds: [2^53 - 1 + 0.5] is [2^53]. *)
Definition rounding_counts : data_dict :=
  record_of [9007199254740991; 0.5; 9007199254740990; 0.5; 0; 0]
            18014398509481982.

(** The record of claim C6: [0, -2, 0, 0, 0, 0] with total [-2]. *)
Definition negative_total : data_dict := record_of [0; -2; 0; 0; 0; 0] (-2).

End Binary64.

(** Closed goals over concrete rationals. *)
Ltac by_computation :=
  vm_compute; first [reflexivity | discriminate | intro; discriminate].


(** ** The bracket walk *)

Lemma py_gt_true (x y : Q) : py_gt x y = true <-> y < x.
Proof.
  unfold py_gt. rewrite negb_true_iff, <- not_true_iff_false, Qle_bool_iff.
  split; [apply Qnot_le_lt | apply Qlt_not_le].
Qed.

Lemma py_gt_false (x y : Q) : py_gt x y = false <-> ~ y < x.
Proof.
  rewrite <- py_gt_true. destruct (py_gt x y); intuition congruence.
Qed.

Lemma running_from_cons (run c : Q) (cs : list Q) (k : nat) :
  running_from run (c :: cs) (S k) = running_from (run + c) cs k.
Proof. reflexivity. Qed.

Lemma median_loop_hit :
  forall cs bn run mx k c,
    nth_error cs k = Some c ->
    (forall j, (j < k)%nat -> ~ mx < running_from run cs j) ->
    mx < running_from run cs k ->
    median_loop cs bn run mx =
      (y_1 <- py_index brackets (bn + k) ;;
       y_2 <- py_index brackets (bn + k + 1) ;;
       lin_approx (running_from run cs k - c) y_1 (running_from run cs k) y_2 mx).
Proof.
  induction cs as [|c0 cs IH]; intros bn run mx k c Hk Hbefore Hhit.
  - destruct k; discriminate.
  - destruct k as [|k].
    + injection Hk as <-. cbn [median_loop].
      apply py_gt_true in Hhit. unfold running_from in *; cbn [firstn fold_left] in *.
      rewrite Hhit, Nat.add_0_r. reflexivity.
    + cbn [median_loop nth_error] in *.
      assert (H0 : py_gt (run + c0) mx = false).
      { apply py_gt_false. apply (Hbefore 0%nat). lia. }
      rewrite H0, running_from_cons.
      replace (bn + S k)%nat with (S bn + k)%nat by lia.
      rewrite (IH (S bn) (run + c0) mx k c Hk).
      * reflexivity.
      * intros j Hj. apply (Hbefore (S j)). lia.
      * exact Hhit.
Qed.

Lemma median_loop_miss :
  forall cs bn run mx,
    (forall j, (j < length cs)%nat -> ~ mx < running_from run cs j) ->
    median_loop cs bn run mx = Return (-1).
Proof.
  induction cs as [|c0 cs IH]; intros bn run mx Hnone.
  - reflexivity.
  - cbn [median_loop].
    assert (H0 : py_gt (run + c0) mx = false).
    { apply py_gt_false. apply (Hnone 0%nat). cbn. lia. }
    rewrite H0. apply IH. intros j Hj.
    apply (Hnone (S j)). cbn. lia.
Qed.




(** ** Division *)


Lemma py_div_zero (x y : Q) : y == 0 -> py_div x y = Raise ZeroDivisionError.
Proof.
  intros Hy. unfold py_div. apply Qeq_bool_iff in Hy. now rewrite Hy.
Qed.


Lemma lin_approx_zero (x_1 y_1 x_2 y_2 x_0 : Q) :
  x_1 == x_2 -> lin_approx x_1 y_1 x_2 y_2 x_0 = Raise ZeroDivisionError.
Proof.
  intros H. unfold lin_approx. rewrite py_div_zero; [reflexivity|].
  rewrite H. ring.
Qed.

(** ** Floor division by two *)


Lemma floordiv2_nonneg (t : Q) : 0 <= t -> 0 <= floordiv2 t.
Proof.
  intros Ht. unfold floordiv2.
  change 0 with (inject_Z 0). rewrite <- Zle_Qle.
  rewrite <- (Qfloor_Z 0). apply Qfloor_resp_le.
  change (inject_Z 0) with 0. apply Qle_shift_div_l; lra.
Qed.


(** ** The target bracket *)

Lemma count_at_nth_error (data : data_dict) (k : nat) :
  (k < length (counts data))%nat ->
  nth_error (counts data) k = Some (count_at data k).
Proof. intros Hk. unfold count_at. now apply nth_error_nth'. Qed.









(** ** The mean *)

Lemma six_counts (cs : list Q) :
  length cs = 6%nat ->
  exists c0 c1 c2 c3 c4 c5, cs = [c0; c1; c2; c3; c4; c5].
Proof.
  intros H. do 6 (destruct cs as [|? cs]; [discriminate|]).
  destruct cs; [|discriminate]. now repeat eexists.
Qed.




(** ** Properties of the estimator *)



(** C5.  On a record whose total is zero, [compute_mean] does not return a
    number: the final division raises [ZeroDivisionError], the typed error
    the specification calls DivisionUndefined. *)
Theorem compute_mean_zero_total (data : data_dict) :
  total data == 0 ->
  compute_mean data = Raise ZeroDivisionError /\
  signals (compute_mean data) DivisionUndefined /\
  forall v, compute_mean data <> Return v.
Proof.
  intros Ht.
  assert (E : compute_mean data = Raise ZeroDivisionError).
  { unfold compute_mean. now apply py_div_zero. }
  rewrite E. split; [reflexivity|]. split; [|discriminate].
  exists ZeroDivisionError. split; reflexivity.
Qed.

Lemma compute_mean_zero_total_witness :
  total example2 == 0 /\
  compute_mean example2 = Raise ZeroDivisionError /\
  signals (compute_mean example2) DivisionUndefined /\
  forall v, compute_mean example2 <> Return v.
Proof.
  split; [reflexivity|]. apply (compute_mean_zero_total example2). reflexivity.
Defined.





(** C4, as the code has it.  When no bracket's running total exceeds the
    rank (for example when the total is zero), [compute_median] raises
    nothing: it returns the number -1, the initial value of [result]. *)
Theorem compute_median_sentinel (data : data_dict) :
  (forall k, (k < length (counts data))%nat ->
             ~ median_rank data < running_total data k) ->
  compute_median data = Return (-1).
Proof.
  intros Hnone. unfold compute_median. now apply median_loop_miss.
Qed.

Lemma no_target_example2 (k : nat) :
  (k < length (counts example2))%nat ->
  ~ median_rank example2 < running_total example2 k.
Proof.
  intros Hk. cbn in Hk.
  do 6 (destruct k as [|k]; [by_computation|]). lia.
Defined.

Lemma compute_median_sentinel_witness :
  compute_median example2 = Return (-1).
Proof.
  apply (compute_median_sentinel example2). exact no_target_example2.
Defined.

(** C4, as the specification states it, fails on the record with six zero
    counts and total 0: no bracket exceeds the rank, and the call returns
    the sentinel -1 instead of raising. *)
Lemma compute_median_zero_total_no_failure :
  total example2 == 0 /\
  (forall k, (k < length (counts example2))%nat ->
             ~ median_rank example2 < running_total example2 k) /\
  compute_median example2 = Return (-1) /\
  ~ exists e, compute_median example2 = Raise e.
Proof.
  split; [reflexivity|]. split; [exact no_target_example2|].
  split; [reflexivity|]. intros [e H]. discriminate H.
Qed.

(** C6.  The code does not do this.  On counts [0,-2,0,0,0,0] with total
    -2, bracket 0 is the target with [x_1 == x_2]; nothing guards the
    division of [lin_approx], the zero divisor reaches it, and
    [compute_median] fails with the division's own [ZeroDivisionError]:
    it neither signals a failed estimation nor returns the -1 its
    docstring gives for an error. *)
Lemma compute_median_division_unguarded :
  first_target negative_total 0 /\
  x_1 negative_total 0 == x_2 negative_total 0 /\
  py_div (y_2 0 - y_1 0) (x_2 negative_total 0 - x_1 negative_total 0)
    = Raise ZeroDivisionError /\
  compute_median negative_total = Raise ZeroDivisionError /\
  compute_median negative_total <> Return (-1) /\
  ~ signals (compute_median negative_total) EstimationFailed.
Proof.
  split.
  { split; [cbn; lia|]. split; [by_computation|]. intros j Hj. lia. }
  split; [by_computation|]. split; [reflexivity|]. split; [reflexivity|].
  split; [discriminate|].
  intros (e & H & Hf). vm_compute in H. injection H as <-. discriminate Hf.
Qed.



(** ** The aggregator *)

Lemma num_returns_of_first_match (zipcode_ i : Z) (df_full : dataframe) :
  num_returns_of (filter (fun r => (row_zipcode r =? zipcode_)%Z) df_full) i =
    match first_match zipcode_ i df_full with
    | Some r => match N1 r with
                | Numeric q => Return q
                | NonNumeric => Raise SystemExit
                end
    | None => Raise SystemExit
    end.
Proof.
  unfold num_returns_of, first_match.
  induction df_full as [|r df IH]; [reflexivity|].
  cbn [filter find].
  destruct (row_zipcode r =? zipcode_)%Z; cbn [andb filter]; [|exact IH].
  destruct (agi_stub r =? i)%Z; [|exact IH].
  cbn [map iloc0 bind]. destruct (N1 r); reflexivity.
Qed.

Lemma num_returns_of_raises (df : dataframe) (i : Z) (e : exn) :
  num_returns_of df i = Raise e -> e = SystemExit.
Proof.
  unfold num_returns_of, try_except, sys_exit.
  destruct (c <- iloc0 _ ;; py_float c); congruence.
Qed.

Lemma bracket_loop_exits (df : dataframe) (i : Z) :
  num_returns_of df i = Raise SystemExit ->
  forall stubs counts_ total_,
    In i stubs -> bracket_loop df stubs counts_ total_ = Raise SystemExit.
Proof.
  intros Hi. induction stubs as [|j stubs IH]; intros cs t Hin; [destruct Hin|].
  cbn [bracket_loop]. destruct (num_returns_of df j) as [q|e] eqn:E.
  - cbn [bind]. destruct Hin as [-> | Hin]; [congruence|]. now apply IH.
  - cbn [bind]. now rewrite (num_returns_of_raises df j e E).
Qed.

Lemma bracket_loop_returns (df : dataframe) :
  forall stubs counts_ total_ counts' total',
    bracket_loop df stubs counts_ total_ = Return (counts', total') ->
    exists qs,
      Forall2 (fun i q => num_returns_of df i = Return q) stubs qs /\
      counts' = counts_ ++ qs /\ total' = fold_left Qplus qs total_.
Proof.
  induction stubs as [|j stubs IH]; intros cs t cs' t' H.
  - injection H as <- <-. exists []. rewrite app_nil_r. now repeat constructor.
  - cbn [bracket_loop] in H. destruct (num_returns_of df j) as [q|e] eqn:E;
      cbn [bind] in H; [|discriminate].
    destruct (IH _ _ _ _ H) as (qs & HF & -> & ->).
    exists (q :: qs). split; [now constructor|].
    now rewrite <- app_assoc.
Qed.

Lemma read_in_data_unfold (zipcode_ : Z) (df_full : dataframe) :
  read_in_data zipcode_ df_full =
    (ct <- bracket_loop
             (filter (fun r => (row_zipcode r =? zipcode_)%Z) df_full)
             range_1_7 [] 0 ;;
     Return {| zipcode := py_str zipcode_; counts := fst ct; total := snd ct;
               lowerbounds := the_lowerbounds;
               upperbounds := the_upperbounds |}).
Proof. reflexivity. Qed.

(** ** Properties of the aggregator *)

(** C3, as the code has it.  When, for some bracket index from 1 to 6, the
    table has no row for the zone, or the count of the row read is not
    numeric, [read_in_data] calls [sys.exit()]: it raises [SystemExit],
    whichever of the two happened, [income_info] lets it through, and the
    process ends. *)
Theorem read_in_data_exits (zipcode_ i : Z) (df_full : dataframe) :
  (1 <= i <= 6)%Z ->
  missing_or_malformed zipcode_ i df_full ->
  terminates_process (read_in_data zipcode_ df_full) /\
  terminates_process (income_info zipcode_ df_full).
Proof.
  intros Hi Hbad.
  assert (E : read_in_data zipcode_ df_full = Raise SystemExit).
  { rewrite read_in_data_unfold.
    rewrite (bracket_loop_exits _ i); [reflexivity | | ].
    - rewrite num_returns_of_first_match.
      unfold missing_or_malformed in Hbad.
      destruct (first_match zipcode_ i df_full) as [r|]; [|reflexivity].
      now rewrite Hbad.
    - unfold range_1_7. cbn [In]. lia. }
  unfold terminates_process, income_info. now rewrite E.
Qed.

Lemma read_in_data_exits_witness :
  (1 <= 2 <= 6)%Z /\
  missing_or_malformed 98115 2 table_text_count /\
  terminates_process (read_in_data 98115 table_text_count) /\
  terminates_process (income_info 98115 table_text_count).
Proof.
  split; [lia|]. split; [reflexivity|].
  apply (read_in_data_exits 98115 2 table_text_count); [lia | reflexivity].
Defined.

(** C3, as the specification states it, fails: for a zone with a missing
    bracket row, and for a zone whose count is not numeric, the call is not
    a failure reported to the caller of the query but the end of the
    process. *)
Lemma read_in_data_failure_ends_process :
  (missing_or_malformed 10001 2 table_98115 /\
   terminates_process (read_in_data 10001 table_98115) /\
   ~ failed_query (read_in_data 10001 table_98115) /\
   ~ signals (read_in_data 10001 table_98115) NotFound) /\
  (missing_or_malformed 98115 2 table_text_count /\
   terminates_process (read_in_data 98115 table_text_count) /\
   ~ failed_query (read_in_data 98115 table_text_count) /\
   ~ signals (read_in_data 98115 table_text_count) MalformedData).
Proof.
  split; (split; [exact I || reflexivity|]); (split; [reflexivity|]); split.
  all: intros (e & H & Hne); vm_compute in H; injection H as <-;
    first [now apply Hne | discriminate Hne].
Qed.



(** ** Further properties of the estimator *)

Lemma zip3_app {A B C : Type} (a : list A) (b : list B) (c e : list C) :
  (length a <= length c)%nat -> zip3 a b (c ++ e) = zip3 a b c.
Proof.
  revert b c. induction a as [|x a IH]; intros b c Hlen; [reflexivity|].
  destruct b as [|y b]; [reflexivity|].
  destruct c as [|z c]; [cbn in Hlen; lia|].
  cbn [zip3 app]. rewrite IH; [reflexivity | cbn in Hlen; lia].
Qed.

(** X6.  [compute_mean] reads one count per pair of bounds and no more:
    counts beyond the number of lower bounds (beyond the sixth, with the
    fixed bounds) do not change its result. *)
Theorem compute_mean_ignores_extra_counts (data : data_dict)
  (cs extra : list Q) :
  (length (lowerbounds data) <= length cs)%nat ->
  compute_mean (set_counts data (cs ++ extra)) =
  compute_mean (set_counts data cs).
Proof.
  intros Hlen. unfold compute_mean, set_counts.
  cbn [lowerbounds upperbounds counts total].
  now rewrite zip3_app.
Qed.

Lemma compute_mean_ignores_extra_counts_witness :
  compute_mean (set_counts example1 ([10; 0; 0; 0; 0; 0] ++ [7; 9])) =
  compute_mean (set_counts example1 [10; 0; 0; 0; 0; 0]).
Proof.
  apply (compute_mean_ignores_extra_counts example1 [10; 0; 0; 0; 0; 0] [7; 9]).
  cbn. lia.
Defined.

(** X7.  [compute_median] has seven boundaries for six brackets: when the
    counts are more than six and the target is the seventh bracket or a
    later one, the lookup of the next boundary is out of range and the call
    raises [IndexError]. *)
Theorem compute_median_seventh_bracket (data : data_dict) (k : nat) :
  first_target data k -> (6 <= k)%nat ->
  compute_median data = Raise IndexError.
Proof.
  intros (Hk & Hhit & Hbefore) Hk6.
  change (compute_median data)
    with (median_loop (counts data) 0 0 (median_rank data)).
  rewrite (median_loop_hit _ 0 0 _ k (count_at data k)
             (count_at_nth_error data k Hk) Hbefore Hhit).
  cbn [Nat.add]. do 6 (destruct k as [|k]; [lia|]).
  destruct k as [|k]; [reflexivity|].
  unfold py_index, brackets. cbn [nth_error]. now destruct k.
Qed.

Lemma compute_median_seventh_bracket_witness :
  first_target seven_counts 6 /\
  compute_median seven_counts = Raise IndexError.
Proof.
  assert (Ht : first_target seven_counts 6).
  { split; [cbn; lia|]. split; [by_computation|].
    intros j Hj. do 6 (destruct j as [|j]; [by_computation|]). lia. }
  split; [exact Ht|].
  apply (compute_median_seventh_bracket seven_counts 6%nat); [exact Ht | lia].
Defined.

Lemma running_from_firstn (run : Q) (cs cs' : list Q) (k j : nat) :
  firstn (S k) cs' = firstn (S k) cs -> (j <= k)%nat ->
  running_from run cs' j = running_from run cs j.
Proof.
  intros E Hj. unfold running_from.
  replace (firstn (S j) cs') with (firstn (S j) (firstn (S k) cs'))
    by (rewrite firstn_firstn; f_equal; lia).
  rewrite E, firstn_firstn. f_equal. f_equal. lia.
Qed.

(** X8.  [compute_median] stops at the target bracket: the counts after it
    are never read, so replacing them (the total staying the same) does not
    change the result. *)
Theorem compute_median_ignores_later_counts (data : data_dict) (k : nat)
  (cs' : list Q) :
  first_target data k ->
  firstn (S k) cs' = firstn (S k) (counts data) ->
  compute_median (set_counts data cs') = compute_median data.
Proof.
  intros (Hk & Hhit & Hbefore) E.
  pose proof (count_at_nth_error data k Hk) as Hc.
  assert (Hc' : nth_error cs' k = Some (count_at data k)).
  { pose proof (nth_error_firstn (S k) cs' k) as H1.
    pose proof (nth_error_firstn (S k) (counts data) k) as H2.
    rewrite (proj2 (Nat.ltb_lt k (S k)) (Nat.lt_succ_diag_r k)) in H1, H2.
    rewrite <- H1, E, H2. exact Hc. }
  change (compute_median data)
    with (median_loop (counts data) 0 0 (median_rank data)).
  change (compute_median (set_counts data cs'))
    with (median_loop cs' 0 0 (median_rank data)).
  unfold running_total in *.
  rewrite (median_loop_hit (counts data) 0 0 _ k _ Hc Hbefore Hhit).
  rewrite (median_loop_hit cs' 0 0 _ k _ Hc').
  - now rewrite (running_from_firstn 0 _ _ k k E).
  - intros j Hj. rewrite (running_from_firstn 0 _ _ k j E) by lia.
    now apply Hbefore.
  - now rewrite (running_from_firstn 0 _ _ k k E).
Qed.

Lemma compute_median_ignores_later_counts_witness :
  first_target example3 1 /\
  compute_median (set_counts example3 [5; 5; 3; 1; 4; 1]) =
  compute_median example3.
Proof.
  assert (Ht : first_target example3 1).
  { split; [cbn; lia|]. split; [by_computation|].
    intros j Hj. assert (j = 0)%nat as -> by lia. by_computation. }
  split; [exact Ht|].
  apply (compute_median_ignores_later_counts example3 1%nat [5; 5; 3; 1; 4; 1]);
    [exact Ht | reflexivity].
Defined.

(** ** Further properties of the aggregator *)

Lemma bracket_loop_raises (df : dataframe) :
  forall stubs counts_ total_ e,
    bracket_loop df stubs counts_ total_ = Raise e ->
    exists i, In i stubs /\ num_returns_of df i = Raise e.
Proof.
  induction stubs as [|j stubs IH]; intros cs t e H; [discriminate|].
  cbn [bracket_loop] in H. destruct (num_returns_of df j) as [q|e'] eqn:E;
    cbn [bind] in H.
  - destruct (IH _ _ _ H) as (i & Hin & Hi). exists i. split; [now right | exact Hi].
  - injection H as <-. exists j. split; [now left | exact E].
Qed.

Lemma bracket_loop_same (df df' : dataframe) :
  forall stubs counts_ total_,
    (forall i, In i stubs -> num_returns_of df' i = num_returns_of df i) ->
    bracket_loop df' stubs counts_ total_ = bracket_loop df stubs counts_ total_.
Proof.
  induction stubs as [|j stubs IH]; intros cs t H; [reflexivity|].
  cbn [bracket_loop]. rewrite (H j) by now left.
  destruct (num_returns_of df j) as [q|e]; cbn [bind]; [|reflexivity].
  apply IH. intros i Hi. apply H. now right.
Qed.

Lemma bracket_loop_more (df df' : dataframe) :
  (forall i q, num_returns_of df i = Return q -> num_returns_of df' i = Return q) ->
  forall stubs counts_ total_ x,
    bracket_loop df stubs counts_ total_ = Return x ->
    bracket_loop df' stubs counts_ total_ = Return x.
Proof.
  intros Hmore. induction stubs as [|j stubs IH]; intros cs t x H; [exact H|].
  cbn [bracket_loop] in *. destruct (num_returns_of df j) as [q|e] eqn:E;
    cbn [bind] in H; [|discriminate].
  rewrite (Hmore j q E). cbn [bind]. now apply IH.
Qed.

Lemma in_range_1_7 (i : Z) : In i range_1_7 <-> (1 <= i <= 6)%Z.
Proof. unfold range_1_7. cbn [In]. lia. Qed.

Lemma num_returns_of_raise_cause (zipcode_ i : Z) (df_full : dataframe) (e : exn) :
  num_returns_of (filter (fun r => (row_zipcode r =? zipcode_)%Z) df_full) i
    = Raise e ->
  missing_or_malformed zipcode_ i df_full.
Proof.
  rewrite num_returns_of_first_match. unfold missing_or_malformed.
  destruct (first_match zipcode_ i df_full) as [r|]; [|trivial].
  destruct (N1 r); [discriminate | reflexivity].
Qed.

(** X10.  [read_in_data] raises nothing but [SystemExit]: the [IndexError]
    of an empty selection and the [ValueError] of a rejected conversion
    never reach the caller, and when it exits, some bracket index from 1 to
    6 has no row for the zone or a count that is not numeric. *)
Theorem read_in_data_raises_only_exit (zipcode_ : Z) (df_full : dataframe)
  (e : exn) :
  read_in_data zipcode_ df_full = Raise e ->
  e = SystemExit /\
  exists i, (1 <= i <= 6)%Z /\ missing_or_malformed zipcode_ i df_full.
Proof.
  rewrite read_in_data_unfold. intros H.
  destruct (bracket_loop _ range_1_7 [] 0) as [ct|e'] eqn:E;
    cbn [bind] in H; [discriminate|].
  injection H as <-.
  destruct (bracket_loop_raises _ _ _ _ _ E) as (i & Hin & Hi).
  split.
  - exact (num_returns_of_raises _ _ _ Hi).
  - exists i. split; [now apply in_range_1_7|].
    exact (num_returns_of_raise_cause _ _ _ _ Hi).
Qed.

Lemma read_in_data_raises_only_exit_witness :
  read_in_data 98115 table_text_count = Raise SystemExit /\
  exists i, (1 <= i <= 6)%Z /\ missing_or_malformed 98115 i table_text_count.
Proof.
  split; [reflexivity|].
  apply (read_in_data_raises_only_exit 98115 table_text_count SystemExit).
  reflexivity.
Defined.

(** X11.  When every bracket index from 1 to 6 has a row for the zone whose
    count is numeric, [read_in_data] returns a record, and its [zipcode] is
    the decimal text of the zone. *)
Theorem read_in_data_returns (zipcode_ : Z) (df_full : dataframe) :
  (forall i, (1 <= i <= 6)%Z -> ~ missing_or_malformed zipcode_ i df_full) ->
  exists data,
    read_in_data zipcode_ df_full = Return data /\
    zipcode data = py_str zipcode_.
Proof.
  intros Hall. destruct (read_in_data zipcode_ df_full) as [data|e] eqn:E.
  - exists data. split; [reflexivity|].
    rewrite read_in_data_unfold in E.
    destruct (bracket_loop _ range_1_7 [] 0) as [ct|e']; cbn [bind] in E;
      [|discriminate].
    now injection E as <-.
  - exfalso. rewrite read_in_data_unfold in E.
    destruct (bracket_loop _ range_1_7 [] 0) as [ct|e'] eqn:E';
      cbn [bind] in E; [discriminate|].
    destruct (bracket_loop_raises _ _ _ _ _ E') as (i & Hin & Hi).
    apply (Hall i); [now apply in_range_1_7|].
    exact (num_returns_of_raise_cause _ _ _ _ Hi).
Qed.

Lemma all_brackets_table_98115 (i : Z) :
  (1 <= i <= 6)%Z -> ~ missing_or_malformed 98115 i table_98115.
Proof.
  intros Hi.
  assert (H : (i = 1 \/ i = 2 \/ i = 3 \/ i = 4 \/ i = 5 \/ i = 6)%Z) by lia.
  destruct H as [-> | [-> | [-> | [-> | [-> | ->]]]]];
    vm_compute; discriminate.
Defined.

Lemma read_in_data_returns_witness :
  exists data,
    read_in_data 98115 table_98115 = Return data /\
    zipcode data = py_str 98115.
Proof.
  apply (read_in_data_returns 98115 table_98115).
  exact all_brackets_table_98115.
Defined.

Lemma num_returns_of_app (df df' : dataframe) (i : Z) (q : Q) :
  num_returns_of df i = Return q -> num_returns_of (df ++ df') i = Return q.
Proof.
  unfold num_returns_of. rewrite filter_app, map_app.
  destruct (map N1 (filter (fun r => (agi_stub r =? i)%Z) df)) as [|c l].
  - discriminate.
  - intros H. exact H.
Qed.

(** X12.  For each bracket [read_in_data] reads the first row of the zone:
    once a table gives a record, rows added after it (duplicates of the
    zone's brackets included) do not change that record. *)
Theorem read_in_data_first_rows_win (zipcode_ : Z) (df_full extra : dataframe)
  (data : data_dict) :
  read_in_data zipcode_ df_full = Return data ->
  read_in_data zipcode_ (df_full ++ extra) = Return data.
Proof.
  rewrite !read_in_data_unfold, filter_app. intros H.
  destruct (bracket_loop (filter _ df_full) range_1_7 [] 0) as [ct|e] eqn:E;
    cbn [bind] in H; [|discriminate].
  rewrite (bracket_loop_more _ _ (fun i q => num_returns_of_app _ _ i q) _ _ _ _ E).
  exact H.
Qed.

Lemma read_in_data_first_rows_win_witness :
  read_in_data 98115 table_98115 = Return record_98115 /\
  read_in_data 98115 (table_98115 ++ table_text_count) = Return record_98115.
Proof.
  split; [reflexivity|].
  apply (read_in_data_first_rows_win 98115 table_98115 table_text_count).
  reflexivity.
Defined.

(** X13.  [read_in_data] reads only the rows of the zone asked for whose
    bracket index is from 1 to 6: a row of another zone, or with another
    index, can be added anywhere in the table without changing the
    outcome. *)
Theorem read_in_data_ignores_other_rows (zipcode_ : Z) (l1 l2 : dataframe)
  (r : row) :
  irrelevant_row zipcode_ r ->
  read_in_data zipcode_ (l1 ++ r :: l2) = read_in_data zipcode_ (l1 ++ l2).
Proof.
  intros Hr. rewrite !read_in_data_unfold.
  rewrite (bracket_loop_same
             (filter (fun r => (row_zipcode r =? zipcode_)%Z) (l1 ++ l2))
             (filter (fun r => (row_zipcode r =? zipcode_)%Z) (l1 ++ r :: l2)));
    [reflexivity|].
  intros i Hi. apply in_range_1_7 in Hi.
  unfold num_returns_of. rewrite !filter_app. cbn [filter].
  destruct (row_zipcode r =? zipcode_)%Z eqn:Ez; [|reflexivity].
  cbn [filter].
  destruct (agi_stub r =? i)%Z eqn:Ei; [|reflexivity].
  exfalso. apply Z.eqb_eq in Ez, Ei. destruct Hr as [Hz | Hs]; [auto | lia].
Qed.

Lemma read_in_data_ignores_other_rows_witness :
  irrelevant_row 98115 (row_of 98115 7 NonNumeric) /\
  read_in_data 98115 ([row_of 98115 1 (Numeric 10)]
                      ++ row_of 98115 7 NonNumeric :: table_98115) =
  read_in_data 98115 ([row_of 98115 1 (Numeric 10)] ++ table_98115).
Proof.
  assert (H : irrelevant_row 98115 (row_of 98115 7 NonNumeric)).
  { right. cbn. lia. }
  split; [exact H|].
  apply (read_in_data_ignores_other_rows 98115
           [row_of 98115 1 (Numeric 10)] table_98115
           (row_of 98115 7 NonNumeric) H).
Defined.

(** ** The query *)

(** The record [read_in_data] builds. *)
Lemma read_in_data_shape (zipcode_ : Z) (df_full : dataframe) (data : data_dict) :
  read_in_data zipcode_ df_full = Return data ->
  length (counts data) = 6%nat /\ total data = py_sum (counts data).
Proof.
  rewrite read_in_data_unfold. intros H.
  destruct (bracket_loop _ range_1_7 [] 0) as [[cs t]|e] eqn:E;
    cbn [bind] in H; [|discriminate].
  injection H as <-. cbn [counts total fst snd].
  destruct (bracket_loop_returns _ _ _ _ _ _ E) as (qs & HF & -> & ->).
  cbn [app]. split; [|reflexivity].
  symmetry. exact (Forall2_length HF).
Qed.

Lemma all_zero_counts (data : data_dict) :
  length (counts data) = 6%nat ->
  Forall (fun c => c == 0) (counts data) ->
  total data = py_sum (counts data) ->
  total data == 0 /\ compute_median data = Return (-1).
Proof.
  intros H6 Hz Hs.
  destruct (six_counts _ H6) as (c0 & c1 & c2 & c3 & c4 & c5 & E).
  rewrite E in Hz, Hs. unfold py_sum in Hs. cbn [fold_left] in Hs.
  repeat match goal with
         | H : Forall _ (_ :: _) |- _ => inversion H; clear H; subst
         end.
  assert (H0 : total data == 0) by (rewrite Hs; lra).
  split; [exact H0|].
  assert (Hrank : 0 <= median_rank data).
  { apply floordiv2_nonneg. rewrite H0. lra. }
  change (compute_median data)
    with (median_loop (counts data) 0 0 (median_rank data)).
  apply median_loop_miss. rewrite E. intros j Hj. cbn in Hj.
  unfold running_from.
  do 6 (destruct j as [|j]; [cbn [firstn fold_left]; lra|]). lia.
Qed.

(** X14.  For a zone whose six counts are all zero, [income_info] raises
    [ZeroDivisionError]: the mean is computed first and divides by the zero
    total, so the -1 that [compute_median] returns for such a record never
    reaches the caller of the query. *)
Theorem income_info_zero_counts (zipcode_ : Z) (df_full : dataframe)
  (data : data_dict) :
  read_in_data zipcode_ df_full = Return data ->
  Forall (fun c => c == 0) (counts data) ->
  income_info zipcode_ df_full = Raise ZeroDivisionError /\
  compute_median data = Return (-1).
Proof.
  intros E Hz.
  destruct (read_in_data_shape _ _ _ E) as [H6 Hs].
  destruct (all_zero_counts data H6 Hz Hs) as [H0 Hmed].
  split; [|exact Hmed].
  unfold income_info. rewrite E. cbn [bind].
  unfold compute_mean. now rewrite (py_div_zero _ _ H0).
Qed.

Lemma income_info_zero_counts_witness :
  read_in_data 98115 table_zero_counts = Return record_zero_counts /\
  income_info 98115 table_zero_counts = Raise ZeroDivisionError /\
  compute_median record_zero_counts = Return (-1).
Proof.
  split; [reflexivity|].
  apply (income_info_zero_counts 98115 table_zero_counts record_zero_counts);
    [reflexivity | repeat constructor; by_computation].
Defined.

(** ** The estimator in binary64 *)

Import Stdlib.Floats.PrimFloat.

(** On the examples of the specification the two readings agree. *)
Lemma binary64_examples :
  Binary64.compute_mean Binary64.example1 = Return 12500%float /\
  Binary64.compute_median Binary64.example1 = Return 12500.5%float /\
  Binary64.compute_median Binary64.example3 = Return 25000%float.
Proof. repeat split; vm_compute; reflexivity. Qed.



Lemma valid_rounding_counts : Binary64.valid Binary64.rounding_counts.
Proof. repeat split; vm_compute; reflexivity. Qed.



(** C10.  The code does not do this in binary64.  The record with counts
    [9007199254740991, 0.5, 9007199254740990, 0.5, 0, 0] and total
    18014398509481982 is valid.  At bracket 1 the running total
    [2^53 - 1 + 0.5] rounds to [2^53], which exceeds the rank [2^53 - 1];
    [x_1 = 2^53 - 0.5] rounds to [2^53] as well, so [x_2 - x_1] is zero and
    the division of [lin_approx] raises [ZeroDivisionError]. *)
Lemma compute_median_binary64_zero_divisor :
  Binary64.valid Binary64.rounding_counts /\
  Binary64.floordiv2 (Binary64.total Binary64.rounding_counts)
    = 9007199254740991%float /\
  PrimFloat.add 9007199254740991 0.5 = 9007199254740992%float /\
  PrimFloat.sub 9007199254740992 0.5 = 9007199254740992%float /\
  Binary64.lin_approx 9007199254740992 25000 9007199254740992 50000
    9007199254740991 = Raise ZeroDivisionError /\
  Binary64.compute_median Binary64.rounding_counts = Raise ZeroDivisionError.
Proof.
  split; [exact valid_rounding_counts|]. repeat split; vm_compute; reflexivity.
Qed.

(** The record of C6 gives the same failure in binary64. *)
Lemma binary64_negative_total :
  Binary64.compute_median Binary64.negative_total = Raise ZeroDivisionError.
Proof. vm_compute. reflexivity. Qed.
